(** * Proton VPN GTK app: header-bar menu and login widget

    A shallow embedding of
      - [proton/vpn/app/gtk/widgets/headerbar/menu/menu.py]   (class [Menu])
      - [proton/vpn/app/gtk/widgets/login/login_widget.py]    (class [LoginWidget])

    Both classes are event handlers that mutate a few attributes and call
    into collaborators (the controller, dialogs, the main window, GObject
    signal emission).  A handler is embedded as a computation in a small
    monad that threads the object's state, records every call made to a
    collaborator in program order, and can stop with a Python exception. *)

From Stdlib Require Import List String Ascii Bool Arith Lia.
Import ListNotations.
Local Open Scope string_scope.

(** ** The effect monad: state, recorded calls, exceptions *)

Module Effect.

Inductive Result (X A : Type) : Type :=
| Returned (a : A)
| Raised (x : X).
Arguments Returned {X A} a.
Arguments Raised {X A} x.

(** What one run of a handler leaves behind. *)
Record Run (S E X A : Type) : Type := MkRun {
  result : Result X A;
  state : S;
  calls : list E
}.
Arguments MkRun {S E X A} result state calls.
Arguments result {S E X A} r.
Arguments state {S E X A} r.
Arguments calls {S E X A} r.

Definition M (S E X A : Type) : Type := S -> Run S E X A.

Section Ops.
Context {S E X : Type}.

Definition ret {A} (a : A) : M S E X A :=
  fun s => MkRun (Returned a) s [].

Definition bind {A B} (m : M S E X A) (k : A -> M S E X B) : M S E X B :=
  fun s =>
    let r := m s in
    match result r with
    | Returned a =>
        let r' := k a (state r) in
        MkRun (result r') (state r') (calls r ++ calls r')
    | Raised x => MkRun (Raised x) (state r) (calls r)
    end.

Definition gets {A} (f : S -> A) : M S E X A :=
  fun s => MkRun (Returned (f s)) s [].

Definition modify (f : S -> S) : M S E X unit :=
  fun s => MkRun (Returned tt) (f s) [].

(** A call to a collaborator, kept in the run's record. *)
Definition call (e : E) : M S E X unit :=
  fun s => MkRun (Returned tt) s [e].

Definition raise {A} (x : X) : M S E X A :=
  fun s => MkRun (Raised x) s [].

(** [try: body  except <clauses>]: [handler x] is [None] when no
    [except] clause matches [x], and the exception propagates. *)
Definition try_except {A} (body : M S E X A)
    (handler : X -> option (M S E X A)) : M S E X A :=
  fun s =>
    let r := body s in
    match result r with
    | Returned a => r
    | Raised x =>
        match handler x with
        | Some h =>
            let r' := h (state r) in
            MkRun (result r') (state r') (calls r ++ calls r')
        | None => r
        end
    end.
End Ops.

Declare Scope effect_scope.
Delimit Scope effect_scope with effect.
Notation "x <- m ;; k" := (bind m (fun x => k))
  (at level 61, m at next level, right associativity) : effect_scope.
Notation "m ;; k" := (bind m (fun _ => k))
  (at level 61, right associativity) : effect_scope.

(** How often a call satisfying [p] was made. *)
Definition count {E} (p : E -> bool) (l : list E) : nat :=
  List.length (filter p l).

End Effect.

Import Effect.
Local Open Scope effect_scope.

(** ** menu.py *)

Module Menu.

(** [Gtk.ResponseType], the value a dialog's [run()] is converted to. *)
Inductive ResponseType : Type :=
| NONE | REJECT | ACCEPT | DELETE_EVENT | OK | CANCEL
| CLOSE | YES | NO | APPLY | HELP.

Definition ResponseType_eqb (a b : ResponseType) : bool :=
  match a, b with
  | NONE, NONE | REJECT, REJECT | ACCEPT, ACCEPT
  | DELETE_EVENT, DELETE_EVENT | OK, OK | CANCEL, CANCEL
  | CLOSE, CLOSE | YES, YES | NO, NO | APPLY, APPLY | HELP, HELP => true
  | _, _ => false
  end.
Infix "==" := ResponseType_eqb (at level 70, no associativity).

(** What [future.result()] can raise: the failure the handler names, or
    anything else. [message] is the text [getattr(e, 'message', repr(e))]. *)
Inductive Exception : Type :=
| ProtonAPINotReachable (message : string)
| OtherException (message : string).

(** A [concurrent.futures.Future] at the time its done-callback runs. *)
Inductive Future : Type :=
| Resolved
| Failed (e : Exception).

(** Calls the menu makes to its collaborators. *)
Inductive Call : Type :=
| logger_info (msg : string)
| set_enabled (newvalue : bool)          (* logout_action.set_enabled *)
| DisconnectDialog (message : string)    (* dialog constructor *)
| set_transient_for
| run
| destroy
| controller_logout
| add_done_callback
| main_window_quit
| emit (signal : string)
| show_error_dialog (message title : string).

(** The menu together with the part of its surroundings it reads:
    the controller's connection flag and the answers the user will give
    to the modal dialogs, in the order the dialogs are run. *)
Record State : Type := MkState {
  logout_action_enabled : bool;
  is_connection_active : bool;
  user_answers : nat -> ResponseType;
  dialogs_run : nat
}.

Definition M := Effect.M State Call Exception.

Definition LF : string := String (ascii_of_nat 10) EmptyString.

Definition UNABLE_TO_LOGOUT_TITLE : string := "Unable to Logout".
Definition UNABLE_TO_LOGOUT_MESSAGE : string :=
  "Please ensure you have internet access.".
Definition DISCONNECT_ON_LOGOUT_MESSAGE : string :=
  "Logging out of the application will disconnect the active"
  ++ " VPN connection." ++ LF ++ LF ++ "Do you want to continue?".
Definition DISCONNECT_ON_QUIT_MESSAGE : string :=
  "Quitting the application will disconnect the active"
  ++ " VPN connection." ++ LF ++ LF ++ "Do you want to continue?".

(** A fresh [Gio.SimpleAction] is enabled. *)
Definition init (active : bool) (answers : nat -> ResponseType) : State :=
  MkState true active answers 0.

(** [logout_enabled] property, getter and setter. *)
Definition logout_enabled (s : State) : bool := logout_action_enabled s.

Definition set_logout_enabled (newvalue : bool) : M unit :=
  call (set_enabled newvalue) ;;
  modify (fun s => MkState newvalue (is_connection_active s)
                     (user_answers s) (dialogs_run s)).

(** The response the next dialog run from [s] will get. *)
Definition next_answer (s : State) : ResponseType :=
  user_answers s (dialogs_run s).

(** [Gtk.ResponseType(dialog.run())]: blocks until the user answers. *)
Definition dialog_run : M ResponseType :=
  call run ;;
  response <- gets next_answer ;;
  modify (fun s => MkState (logout_action_enabled s) (is_connection_active s)
                     (user_answers s) (Datatypes.S (dialogs_run s))) ;;
  ret response.

(** [controller.logout()] hands back a future; the callback added to it
    has the main loop run [_on_logout_result future] once it is done. *)
Definition _request_logout : M unit :=
  call controller_logout ;;
  call add_done_callback.

Definition _on_logout_clicked : M unit :=
  call (logger_info "Logout button clicked") ;;
  set_logout_enabled false ;;
  let confirm_logout := true in
  active <- gets is_connection_active ;;
  confirm_logout <-
    (if active : bool then
       call (DisconnectDialog DISCONNECT_ON_LOGOUT_MESSAGE) ;;
       call set_transient_for ;;
       response <- dialog_run ;;
       call destroy ;;
       let confirm_logout := response == YES in
       set_logout_enabled (response == NO) ;;
       ret confirm_logout
     else ret confirm_logout) ;;
  if confirm_logout : bool then
    call (logger_info "Yes") ;;
    _request_logout
  else ret tt.

Definition _on_quit_clicked : M unit :=
  let confirm_quit := true in
  active <- gets is_connection_active ;;
  confirm_quit <-
    (if active : bool then
       call (DisconnectDialog DISCONNECT_ON_QUIT_MESSAGE) ;;
       call set_transient_for ;;
       response <- dialog_run ;;
       call destroy ;;
       ret (response == YES)
     else ret confirm_quit) ;;
  if confirm_quit : bool then
    call (logger_info "Yes") ;;
    call main_window_quit
  else ret tt.

(** [future.result()] *)
Definition future_result (future : Future) : M unit :=
  match future with
  | Resolved => ret tt
  | Failed e => raise e
  end.

Definition _on_logout_result (future : Future) : M unit :=
  try_except
    (future_result future ;;
     call (logger_info "Successful logout") ;;
     call (emit "user-logged-out"))
    (fun e =>
       match e with
       | ProtonAPINotReachable message =>
           Some (call (logger_info message) ;;
                 set_logout_enabled true ;;
                 call (show_error_dialog UNABLE_TO_LOGOUT_MESSAGE
                                         UNABLE_TO_LOGOUT_TITLE))
       | OtherException _ => None
       end).

Definition logout_button_click : M unit := _on_logout_clicked.
Definition quit_button_click : M unit := _on_quit_clicked.

(** Recognisers for the calls the properties count. *)
Definition is_logout (c : Call) : bool :=
  match c with controller_logout => true | _ => false end.
Definition is_quit (c : Call) : bool :=
  match c with main_window_quit => true | _ => false end.
Definition is_confirmation_dialog (c : Call) : bool :=
  match c with DisconnectDialog _ | run => true | _ => false end.
Definition is_error_dialog (c : Call) : bool :=
  match c with show_error_dialog _ _ => true | _ => false end.
Definition is_emit (signal : string) (c : Call) : bool :=
  match c with emit s => String.eqb s signal | _ => false end.
Definition is_set_enabled (c : Call) : bool :=
  match c with set_enabled _ => true | _ => false end.

(** The calls that must not happen while the logout action is enabled:
    putting up the confirmation dialog and [controller.logout()]. *)
Definition needs_disabled (c : Call) : bool :=
  is_confirmation_dialog c || is_logout c.

(** The logout action's enabled flag once the calls [l] have been made,
    starting from [enabled]. *)
Fixpoint enabled_after (enabled : bool) (l : list Call) : bool :=
  match l with
  | [] => enabled
  | set_enabled newvalue :: l' => enabled_after newvalue l'
  | _ :: l' => enabled_after enabled l'
  end.

(** Replays [l] and checks that the flag is off at every call that
    [needs_disabled]. *)
Fixpoint disabled_when_needed (enabled : bool) (l : list Call) : bool :=
  match l with
  | [] => true
  | c :: l' =>
      (if needs_disabled c then negb enabled else true)
      && disabled_when_needed (enabled_after enabled [c]) l'
  end.

(** [_on_logout_clicked] cut at the two points where the menu's state
    matters: before the connection test, where the confirmation dialog
    may come up, and before [_request_logout]. *)
Definition logout_clicked_entry : M unit :=
  call (logger_info "Logout button clicked") ;;
  set_logout_enabled false.

Definition logout_clicked_confirmation : M bool :=
  let confirm_logout := true in
  active <- gets is_connection_active ;;
  if active : bool then
    call (DisconnectDialog DISCONNECT_ON_LOGOUT_MESSAGE) ;;
    call set_transient_for ;;
    response <- dialog_run ;;
    call destroy ;;
    let confirm_logout := response == YES in
    set_logout_enabled (response == NO) ;;
    ret confirm_logout
  else ret confirm_logout.

Definition logout_clicked_request (confirm_logout : bool) : M unit :=
  if confirm_logout then
    call (logger_info "Yes") ;;
    _request_logout
  else ret tt.

End Menu.

(** ** The forms the login widget stacks *)

Module Forms.

(** The one method [LoginWidget.display_form] needs of a form. *)
Class Form (F : Type) : Type := { reset : F -> F }.

(** Modelled from the spec: [LoginForm] (login_form.py is not part of the
    sources at hand).  Its input state is "username (text), password
    (text), transient error message (text or absent)", "cleared on
    reset". *)
Record LoginForm : Type := MkLoginForm {
  username : string;
  password : string;
  error_message : option string
}.

(** Modelled from the spec: [LoginForm.reset], which clears the
    credential input state. *)
Definition LoginForm_reset (f : LoginForm) : LoginForm :=
  MkLoginForm "" "" None.

#[global] Instance LoginForm_Form : Form LoginForm :=
  {| reset := LoginForm_reset |}.

(** Modelled from the spec: [TwoFactorAuthForm] (two_factor_auth_form.py
    is not part of the sources at hand), the form on which the second
    factor is entered.  The spec gives each form "input/error state"
    that [reset()] on the form being shown is there to clear. *)
Record TwoFactorAuthForm : Type := MkTwoFactorAuthForm {
  two_factor_auth_code : string;
  two_factor_auth_error_message : option string
}.

(** Modelled from the spec: [TwoFactorAuthForm.reset], which clears that
    input and error state. *)
Definition TwoFactorAuthForm_reset (f : TwoFactorAuthForm)
  : TwoFactorAuthForm :=
  MkTwoFactorAuthForm "" None.

#[global] Instance TwoFactorAuthForm_Form : Form TwoFactorAuthForm :=
  {| reset := TwoFactorAuthForm_reset |}.

End Forms.

(** ** login_widget.py *)

Module LoginWidget.

(** The two children of the stack, under the names given to [add_named]. *)
Inductive Child : Type :=
| child_login_form      (* "login_form" *)
| child_2fa_form.       (* "2fa_form" *)

Definition Child_eqb (a b : Child) : bool :=
  match a, b with
  | child_login_form, child_login_form | child_2fa_form, child_2fa_form => true
  | _, _ => false
  end.

(** Signals the forms emit and the widget connects to in [__init__]. *)
Inductive Signal : Type :=
| user_authenticated (two_factor_auth_required : bool)
| two_factor_auth_successful
| session_expired.

Inductive Call : Type :=
| set_name (name : string)
| add_named (child : Child)
| connect (child : Child) (signal : string)
| set_visible_child (child : Child)
| form_reset (child : Child)
| emit (signal : string).

Inductive NoException : Type := .

Section Widget.
(** The widget is written against any two form classes. *)
Context {L T : Type} `{Forms.Form L} `{Forms.Form T}.

(** [children] and [visible_child] are the [Gtk.Stack] the widget
    inherits from. *)
Record State : Type := MkState {
  login_form : L;
  two_factor_auth_form : T;
  active_form : option Child;
  children : list Child;
  visible_child : option Child
}.

Definition M := Effect.M State Call NoException.

(** [Gtk.Stack.add_named]: the first child added is the one shown
    until [set_visible_child] is called. *)
Definition stack_add_named (c : Child) : M unit :=
  call (add_named c) ;;
  modify (fun s => MkState (login_form s) (two_factor_auth_form s)
                     (active_form s) (children s ++ [c])
                     (match visible_child s with
                      | None => Some c
                      | Some v => Some v
                      end)).

(** [Gtk.Stack.set_visible_child] *)
Definition stack_set_visible_child (c : Child) : M unit :=
  call (set_visible_child c) ;;
  modify (fun s => MkState (login_form s) (two_factor_auth_form s)
                     (active_form s) (children s) (Some c)).

Definition set_active_form (a : option Child) : M unit :=
  modify (fun s => MkState (login_form s) (two_factor_auth_form s)
                     a (children s) (visible_child s)).

(** [form.reset()] on the object [form] refers to. *)
Definition call_form_reset (form : Child) : M unit :=
  call (form_reset form) ;;
  modify (fun s =>
            match form with
            | child_login_form =>
                MkState (Forms.reset (login_form s))
                  (two_factor_auth_form s)
                  (active_form s) (children s) (visible_child s)
            | child_2fa_form =>
                MkState (login_form s)
                  (Forms.reset (two_factor_auth_form s))
                  (active_form s) (children s) (visible_child s)
            end).

(** The object right after [super().__init__()], holding the two forms
    the constructor has built. *)
Definition new (lf : L) (tf : T) : State := MkState lf tf None [] None.

Definition __init__ : M unit :=
  call (set_name "login-widget") ;;
  set_active_form None ;;
  stack_add_named child_login_form ;;
  stack_add_named child_2fa_form ;;
  call (connect child_login_form "user-authenticated") ;;
  call (connect child_2fa_form "two-factor-auth-successful") ;;
  call (connect child_2fa_form "session-expired").

Definition _signal_user_logged_in : M unit :=
  call (emit "user-logged-in").

Definition display_form (form : Child) : M unit :=
  set_active_form (Some form) ;;
  stack_set_visible_child form ;;
  call_form_reset form.

Definition _on_user_authenticated (two_factor_auth_required : bool)
  : M unit :=
  if negb two_factor_auth_required then _signal_user_logged_in
  else display_form child_2fa_form.

Definition _on_two_factor_auth_successful : M unit :=
  _signal_user_logged_in.

Definition _on_session_expired_during_2fa : M unit :=
  display_form child_login_form.

Definition reset : M unit :=
  display_form child_login_form.

(** The wiring set up by the three [connect] calls of [__init__]:
    what runs when [sender] emits [signal]. *)
Definition on_signal (sender : Child) (signal : Signal) : M unit :=
  match sender, signal with
  | child_login_form, user_authenticated two_factor_auth_required =>
      _on_user_authenticated two_factor_auth_required
  | child_2fa_form, two_factor_auth_successful =>
      _on_two_factor_auth_successful
  | child_2fa_form, session_expired =>
      _on_session_expired_during_2fa
  | _, _ => ret tt
  end.

(** What can happen to the widget: one of its forms emits a signal,
    or its owner calls [reset()]. *)
Inductive Event : Type :=
| emitted (sender : Child) (signal : Signal)
| reset_called.

Definition handle (e : Event) : M unit :=
  match e with
  | emitted sender signal => on_signal sender signal
  | reset_called => reset
  end.

Fixpoint handle_all (es : list Event) : M unit :=
  match es with
  | [] => ret tt
  | e :: es' => handle e ;; handle_all es'
  end.

(** The widget as constructed: [LoginWidget(controller, ...)]. *)
Definition constructed (lf : L) (tf : T) : State :=
  state (__init__ (new lf tf)).

(** The form the widget takes to be active is the one the stack shows;
    before the first [display_form] that is the login form. *)
Definition consistent (s : State) : Prop :=
  match active_form s with
  | Some form => visible_child s = Some form
  | None => visible_child s = Some child_login_form
  end.
End Widget.

Arguments State L T : clear implicits.

Definition is_emit (signal : string) (c : Call) : bool :=
  match c with emit s => String.eqb s signal | _ => false end.
Definition is_switch (c : Call) : bool :=
  match c with set_visible_child _ => true | _ => false end.
Definition is_reset_of (form : Child) (c : Call) : bool :=
  match c with form_reset f => Child_eqb f form | _ => false end.

End LoginWidget.

(** ** menu.py, the rest of the class: the two plain dialogs, the actions
    and the main loop that drives the handlers *)

Module MenuLoop.
Import Menu.

(** The calls of the handlers above, and the two dialogs they do not
    construct. *)
Inductive Call : Type :=
| of_menu (c : Menu.Call)
| BugReportDialog
| AboutDialog.

Definition M := Effect.M Menu.State Call Menu.Exception.

(** A handler written over [Menu.Call], run among the calls of this
    module. *)
Definition lift {A : Type} (m : Menu.M A) : M A :=
  fun s =>
    let r := m s in
    MkRun (result r) (state r) (map of_menu (calls r)).

Definition _on_report_an_issue_clicked : M unit :=
  call BugReportDialog ;;
  lift (call set_transient_for) ;;
  lift dialog_run ;;
  lift (call destroy).

Definition _on_about_clicked : M unit :=
  call AboutDialog ;;
  lift dialog_run ;;
  lift (call destroy).

Definition bug_report_button_click : M unit := _on_report_an_issue_clicked.
Definition about_button_click : M unit := _on_about_clicked.

(** The four [Gio.SimpleAction]s made in [__init__]. *)
Inductive Action : Type :=
| bug_report_action     (* "report" *)
| about_action          (* "about" *)
| logout_action         (* "logout" *)
| quit_action.          (* "quit" *)

(** [_setup_actions]: the callback connected to each action's "activate"
    signal. *)
Definition callback (a : Action) : M unit :=
  match a with
  | bug_report_action => _on_report_an_issue_clicked
  | about_action => _on_about_clicked
  | logout_action => lift _on_logout_clicked
  | quit_action => lift _on_quit_clicked
  end.

(** [action.get_enabled()]: only the logout action is ever switched off. *)
Definition get_enabled (a : Action) (s : Menu.State) : bool :=
  match a with
  | logout_action => logout_enabled s
  | _ => true
  end.

(** The user picks the menu entry of [a]: [Gio.SimpleAction] emits
    "activate" only while the action is enabled. *)
Definition activate (a : Action) : M unit :=
  enabled <- gets (get_enabled a) ;;
  if enabled : bool then callback a else ret tt.

(** Whether the handler of [a] puts up a dialog when run from [s]. *)
Definition shows_dialog (a : Action) (s : Menu.State) : bool :=
  match a with
  | bug_report_action | about_action => true
  | logout_action | quit_action => is_connection_active s
  end.

Definition is_dialog_new (c : Call) : bool :=
  match c with
  | of_menu (DisconnectDialog _) | BugReportDialog | AboutDialog => true
  | _ => false
  end.
Definition is_run (c : Call) : bool :=
  match c with of_menu run => true | _ => false end.
Definition is_destroy (c : Call) : bool :=
  match c with of_menu destroy => true | _ => false end.
Definition is_controller_logout (c : Call) : bool :=
  match c with of_menu c' => is_logout c' | _ => false end.
Definition is_main_window_quit (c : Call) : bool :=
  match c with of_menu c' => is_quit c' | _ => false end.
Definition is_set_logout_enabled (c : Call) : bool :=
  match c with of_menu c' => is_set_enabled c' | _ => false end.
Definition is_signal (c : Call) : bool :=
  match c with of_menu (emit _) => true | _ => false end.

(** What the main loop hands to the menu: a menu entry picked by the
    user, the idle callback of a logout future that has completed, and,
    from outside the menu, the connection coming up or going down. *)
Inductive Event : Type :=
| activated (a : Action)
| logout_done (future : Future)
| connection_changed (active : bool).

(** The menu in its main loop: [futures] counts the logout futures whose
    done-callback has not run yet, [log] keeps the calls made so far. *)
Record Loop : Type := MkLoop {
  menu : Menu.State;
  futures : nat;
  log : list Call
}.

Definition set_connection (active : bool) (s : Menu.State) : Menu.State :=
  Menu.MkState (logout_action_enabled s) active
    (user_answers s) (dialogs_run s).

(** One iteration.  Each [controller.logout()] yields one future, and
    [_request_logout] has [_on_logout_result] run once for it; an
    exception leaving an idle callback is reported by the main loop and
    goes no further. *)
Definition step (e : Event) (l : Loop) : Loop :=
  match e with
  | activated a =>
      let r := activate a (menu l) in
      MkLoop (state r)
        (futures l + count is_controller_logout (calls r))
        (log l ++ calls r)
  | logout_done future =>
      match futures l with
      | 0 => l
      | Datatypes.S n =>
          let r := lift (_on_logout_result future) (menu l) in
          MkLoop (state r) n (log l ++ calls r)
      end
  | connection_changed active =>
      MkLoop (set_connection active (menu l)) (futures l) (log l)
  end.

Definition run_loop (es : list Event) (l : Loop) : Loop :=
  fold_left (fun l e => step e l) es l.

(** The loop around a menu that has just been built. *)
Definition started (active : bool) (answers : nat -> ResponseType) : Loop :=
  MkLoop (init active answers) 0 [].

(** At most one logout is outstanding, and the logout action is off while
    it is. *)
Definition single_flight (l : Loop) : Prop :=
  futures l <= 1 /\ (futures l = 1 -> logout_enabled (menu l) = false).

End MenuLoop.

(** ** login_widget.py: what a run of events amounts to *)

Module LoginFlow.
Import LoginWidget.

(** The form an event puts on display, if it switches at all. *)
Definition switches_to (e : Event) : option Child :=
  match e with
  | emitted child_login_form (user_authenticated true) => Some child_2fa_form
  | emitted child_2fa_form session_expired => Some child_login_form
  | reset_called => Some child_login_form
  | _ => None
  end.

(** Whether an event completes the login. *)
Definition logs_in (e : Event) : bool :=
  match e with
  | emitted child_login_form (user_authenticated false) => true
  | emitted child_2fa_form two_factor_auth_successful => true
  | _ => false
  end.

Definition displays (form : Child) (e : Event) : bool :=
  match switches_to e with
  | Some f => Child_eqb f form
  | None => false
  end.

(** The visible child after the events [es], when [shown] was visible
    before them. *)
Fixpoint shown_after (es : list Event) (shown : option Child)
  : option Child :=
  match es with
  | [] => shown
  | e :: es' =>
      shown_after es'
        (match switches_to e with
         | Some f => Some f
         | None => shown
         end)
  end.

Definition is_display_of (form : Child) (c : Call) : bool :=
  match c with set_visible_child f => Child_eqb f form | _ => false end.

End LoginFlow.

(** * Properties of the menu *)

Module MenuProofs.
Import Menu.
Local Open Scope list_scope.

(** ** What each handler does, as one equation per situation *)

Lemma logout_clicked_connected (s : State) :
  is_connection_active s = true ->
  _on_logout_clicked s =
    MkRun (Returned tt)
      (MkState (next_answer s == NO) true
         (user_answers s) (S (dialogs_run s)))
      ([logger_info "Logout button clicked"; set_enabled false;
        DisconnectDialog DISCONNECT_ON_LOGOUT_MESSAGE; set_transient_for;
        run; destroy; set_enabled (next_answer s == NO)]
       ++ (if next_answer s == YES
           then [logger_info "Yes"; controller_logout; add_done_callback]
           else [])).
Proof.
  destruct s as [enabled active answers n]; simpl; intros ->.
  unfold _on_logout_clicked, bind, next_answer; simpl.
  destruct (answers n); reflexivity.
Qed.

Lemma logout_clicked_not_connected (s : State) :
  is_connection_active s = false ->
  _on_logout_clicked s =
    MkRun (Returned tt)
      (MkState false false (user_answers s) (dialogs_run s))
      [logger_info "Logout button clicked"; set_enabled false;
       logger_info "Yes"; controller_logout; add_done_callback].
Proof.
  destruct s as [enabled active answers n]; simpl; intros ->.
  reflexivity.
Qed.

Lemma quit_clicked_connected (s : State) :
  is_connection_active s = true ->
  _on_quit_clicked s =
    MkRun (Returned tt)
      (MkState (logout_action_enabled s) true
         (user_answers s) (S (dialogs_run s)))
      ([DisconnectDialog DISCONNECT_ON_QUIT_MESSAGE; set_transient_for;
        run; destroy]
       ++ (if next_answer s == YES
           then [logger_info "Yes"; main_window_quit]
           else [])).
Proof.
  destruct s as [enabled active answers n]; simpl; intros ->.
  unfold _on_quit_clicked, bind, next_answer; simpl.
  destruct (answers n); reflexivity.
Qed.

Lemma logout_result_resolved (s : State) :
  _on_logout_result Resolved s =
    MkRun (Returned tt) s
      [logger_info "Successful logout"; emit "user-logged-out"].
Proof. reflexivity. Qed.

Lemma logout_result_not_reachable (message : string) (s : State) :
  _on_logout_result (Failed (ProtonAPINotReachable message)) s =
    MkRun (Returned tt)
      (MkState true (is_connection_active s)
         (user_answers s) (dialogs_run s))
      [logger_info message; set_enabled true;
       show_error_dialog UNABLE_TO_LOGOUT_MESSAGE UNABLE_TO_LOGOUT_TITLE].
Proof. reflexivity. Qed.

(** Any other failure of the future leaves the handler as an exception,
    with nothing done. *)
Lemma logout_result_other_failure (message : string) (s : State) :
  _on_logout_result (Failed (OtherException message)) s =
    MkRun (Raised (OtherException message)) s [].
Proof. reflexivity. Qed.

(** The handlers on a fresh menu, for the three kinds of answer. *)
Example logout_click_answered_yes :
  calls (_on_logout_clicked (init true (fun _ => YES))) =
    [logger_info "Logout button clicked"; set_enabled false;
     DisconnectDialog DISCONNECT_ON_LOGOUT_MESSAGE; set_transient_for;
     run; destroy; set_enabled false;
     logger_info "Yes"; controller_logout; add_done_callback].
Proof. reflexivity. Qed.

Example logout_click_answered_no :
  calls (_on_logout_clicked (init true (fun _ => NO))) =
    [logger_info "Logout button clicked"; set_enabled false;
     DisconnectDialog DISCONNECT_ON_LOGOUT_MESSAGE; set_transient_for;
     run; destroy; set_enabled true].
Proof. reflexivity. Qed.

Example logout_click_dialog_closed :
  _on_logout_clicked (init true (fun _ => DELETE_EVENT)) =
    MkRun (Returned tt)
      (MkState false true (fun _ => DELETE_EVENT) 1)
      [logger_info "Logout button clicked"; set_enabled false;
       DisconnectDialog DISCONNECT_ON_LOGOUT_MESSAGE; set_transient_for;
       run; destroy; set_enabled false].
Proof. reflexivity. Qed.

Example quit_click_not_connected :
  calls (_on_quit_clicked (init false (fun _ => NO))) =
    [logger_info "Yes"; main_window_quit].
Proof. reflexivity. Qed.

Lemma eqb_YES (r : ResponseType) : (r == YES) = true <-> r = YES.
Proof. destruct r; simpl; split; congruence. Qed.

Lemma eqb_NO (r : ResponseType) : (r == NO) = true <-> r = NO.
Proof. destruct r; simpl; split; congruence. Qed.

Lemma eqb_neither (r : ResponseType) :
  r <> YES -> r <> NO -> (r == YES) = false /\ (r == NO) = false.
Proof. destruct r; simpl; intros; split; congruence. Qed.

Lemma enabled_after_cons (enabled : bool) (c : Call) (l : list Call) :
  enabled_after enabled (c :: l) =
  enabled_after (enabled_after enabled [c]) l.
Proof. destruct c; reflexivity. Qed.

(** The replay check says what it should: at every point of [l] where a
    call that [needs_disabled] is made, the flag is off. *)
Lemma disabled_when_needed_sound (pre : list Call) :
  forall (enabled : bool) (l post : list Call) (c : Call),
    disabled_when_needed enabled l = true ->
    l = pre ++ c :: post ->
    needs_disabled c = true ->
    enabled_after enabled pre = false.
Proof.
  induction pre as [|a pre IH]; intros enabled l post c Hchk -> Hc.
  - simpl in Hchk. rewrite Hc in Hchk.
    apply andb_prop in Hchk as [Hoff _].
    simpl. now destruct enabled.
  - rewrite <- app_comm_cons in Hchk.
    cbn [disabled_when_needed] in Hchk.
    apply andb_prop in Hchk as [_ Hrest].
    rewrite enabled_after_cons.
    exact (IH _ _ post c Hrest eq_refl Hc).
Qed.

Lemma logout_clicked_disabled_when_needed (s : State) :
  disabled_when_needed (logout_enabled s) (calls (_on_logout_clicked s))
  = true.
Proof.
  destruct (is_connection_active s) eqn:Hactive.
  - rewrite (logout_clicked_connected s Hactive).
    destruct (next_answer s); reflexivity.
  - rewrite (logout_clicked_not_connected s Hactive). reflexivity.
Qed.

(** Replaying the [set_enabled] calls of a click gives the flag the
    click leaves behind. *)
Lemma logout_clicked_flag_is_replay (s : State) :
  logout_enabled (state (_on_logout_clicked s)) =
  enabled_after (logout_enabled s) (calls (_on_logout_clicked s)).
Proof.
  destruct (is_connection_active s) eqn:Hactive.
  - rewrite (logout_clicked_connected s Hactive).
    destruct (next_answer s); reflexivity.
  - rewrite (logout_clicked_not_connected s Hactive). reflexivity.
Qed.

(** Whenever a click goes on to call [controller.logout()], the action
    is disabled when the click handler returns. *)
Lemma logout_requested_leaves_disabled (s : State) :
  count is_logout (calls (_on_logout_clicked s)) <> 0 ->
  logout_enabled (state (_on_logout_clicked s)) = false.
Proof.
  destruct (is_connection_active s) eqn:Hactive.
  - rewrite (logout_clicked_connected s Hactive).
    destruct (next_answer s); cbv; intros Hcalled;
      solve [reflexivity | now elim Hcalled].
  - rewrite (logout_clicked_not_connected s Hactive). reflexivity.
Qed.

(** ** The claims *)

(** C1. A logout click with an active connection whose confirmation
    dialog is answered "No" re-enables the logout action
    ([logout_enabled] is true afterwards) and never calls
    [controller.logout()]. *)
Theorem logout_declined_reenables_without_logout (s : State) :
  is_connection_active s = true ->
  next_answer s = NO ->
  result (_on_logout_clicked s) = Returned tt /\
  logout_enabled (state (_on_logout_clicked s)) = true /\
  count is_logout (calls (_on_logout_clicked s)) = 0.
Proof.
  intros Hactive Hno.
  rewrite (logout_clicked_connected s Hactive), Hno.
  repeat split.
Qed.

Lemma logout_declined_reenables_without_logout_witness :
  is_connection_active (init true (fun _ => NO)) = true /\
  next_answer (init true (fun _ => NO)) = NO /\
  logout_enabled (state (_on_logout_clicked (init true (fun _ => NO))))
  = true /\
  count is_logout (calls (_on_logout_clicked (init true (fun _ => NO))))
  = 0.
Proof.
  split; [reflexivity | split; [reflexivity |]].
  apply (logout_declined_reenables_without_logout
           (init true (fun _ => NO))); reflexivity.
Defined.

(** C2. When the logout future has failed with [ProtonAPINotReachable],
    the result handler re-enables the logout action, shows exactly one
    error dialog, the one with title "Unable to Logout" and message
    "Please ensure you have internet access.", and emits no
    "user-logged-out" signal. *)
Theorem logout_unreachable_reenables_and_reports (message : string)
    (s : State) :
  let r := _on_logout_result (Failed (ProtonAPINotReachable message)) s in
  result r = Returned tt /\
  logout_enabled (state r) = true /\
  filter is_error_dialog (calls r) =
    [show_error_dialog "Please ensure you have internet access."
                       "Unable to Logout"] /\
  count (is_emit "user-logged-out") (calls r) = 0.
Proof.
  rewrite logout_result_not_reachable. repeat split.
Qed.

(** C6. A logout click with no active connection shows no confirmation
    dialog and calls [controller.logout()] directly, exactly once. *)
Theorem logout_not_connected_skips_dialog (s : State) :
  is_connection_active s = false ->
  result (_on_logout_clicked s) = Returned tt /\
  count is_confirmation_dialog (calls (_on_logout_clicked s)) = 0 /\
  count is_logout (calls (_on_logout_clicked s)) = 1 /\
  dialogs_run (state (_on_logout_clicked s)) = dialogs_run s.
Proof.
  intros Hactive.
  rewrite (logout_clicked_not_connected s Hactive).
  repeat split.
Qed.

Lemma logout_not_connected_skips_dialog_witness :
  is_connection_active (init false (fun _ => CANCEL)) = false /\
  count is_confirmation_dialog
    (calls (_on_logout_clicked (init false (fun _ => CANCEL)))) = 0 /\
  count is_logout
    (calls (_on_logout_clicked (init false (fun _ => CANCEL)))) = 1.
Proof.
  split; [reflexivity |].
  destruct (logout_not_connected_skips_dialog
              (init false (fun _ => CANCEL)) eq_refl)
    as (_ & Hdialog & Hlogout & _).
  split; [exact Hdialog | exact Hlogout].
Defined.

(** C7. A quit click with an active connection: answered "Yes", the
    main window's [quit()] is called exactly once; answered "No",
    nothing is called once the dialog is gone ([quit()] is not called)
    and the menu's state is as before. *)
Theorem quit_connected_yes_once_no_nothing (s : State) :
  is_connection_active s = true ->
  (next_answer s = YES ->
     result (_on_quit_clicked s) = Returned tt /\
     count is_quit (calls (_on_quit_clicked s)) = 1) /\
  (next_answer s = NO ->
     result (_on_quit_clicked s) = Returned tt /\
     count is_quit (calls (_on_quit_clicked s)) = 0 /\
     calls (_on_quit_clicked s) =
       [DisconnectDialog DISCONNECT_ON_QUIT_MESSAGE; set_transient_for;
        run; destroy] /\
     logout_enabled (state (_on_quit_clicked s)) = logout_enabled s /\
     is_connection_active (state (_on_quit_clicked s)) =
       is_connection_active s).
Proof.
  intros Hactive.
  rewrite (quit_clicked_connected s Hactive).
  split; intros ->; simpl; rewrite ?Hactive; repeat split.
Qed.

Lemma quit_connected_yes_once_no_nothing_witness :
  count is_quit (calls (_on_quit_clicked (init true (fun _ => YES)))) = 1
  /\
  count is_quit (calls (_on_quit_clicked (init true (fun _ => NO)))) = 0.
Proof.
  split.
  - apply (proj1 (quit_connected_yes_once_no_nothing
                    (init true (fun _ => YES)) eq_refl) eq_refl).
  - apply (proj2 (quit_connected_yes_once_no_nothing
                    (init true (fun _ => NO)) eq_refl) eq_refl).
Defined.

Lemma logout_clicked_in_stretches (s : State) :
  _on_logout_clicked s =
  (logout_clicked_entry ;;
   confirm_logout <- logout_clicked_confirmation ;;
   logout_clicked_request confirm_logout) s.
Proof.
  destruct s as [enabled active answers n].
  destruct active; [| reflexivity].
  unfold _on_logout_clicked, logout_clicked_entry,
    logout_clicked_confirmation, logout_clicked_request,
    bind, next_answer; simpl.
  destruct (answers n); reflexivity.
Qed.

Lemma logout_clicked_entry_run (s : State) :
  logout_clicked_entry s =
    MkRun (Returned tt)
      (MkState false (is_connection_active s)
         (user_answers s) (dialogs_run s))
      [logger_info "Logout button clicked"; set_enabled false].
Proof. reflexivity. Qed.

Lemma logout_clicked_confirmation_run (s : State) :
  logout_clicked_confirmation s =
    if is_connection_active s then
      MkRun (Returned (next_answer s == YES))
        (MkState (next_answer s == NO) true
           (user_answers s) (S (dialogs_run s)))
        [DisconnectDialog DISCONNECT_ON_LOGOUT_MESSAGE; set_transient_for;
         run; destroy; set_enabled (next_answer s == NO)]
    else MkRun (Returned true) s [].
Proof.
  destruct s as [enabled active answers n].
  destruct active; reflexivity.
Qed.

(** C8. In every logout click the logout action is disabled before the
    confirmation dialog is put up and before [controller.logout()] is
    called, whatever the flag was when the click came in.  The handler
    is its three stretches in a row.  The first turns [logout_enabled]
    off in the menu's state and makes neither call; the dialog is the
    first thing the second one constructs, so it comes up on a disabled
    action; when the second one ends with the logout confirmed,
    [logout_enabled] is off in the state it hands to the third, the only
    one to call [controller.logout()], which leaves the state as it
    finds it.  The same is read off the recorded calls: replaying the
    [set_enabled] calls gives the flag of the state the click ends in,
    and at each of the two calls the flag replayed so far is off. *)
Theorem logout_disabled_before_dialog_and_logout (s : State) :
  let at_dialog := state (logout_clicked_entry s) in
  let confirmed := logout_clicked_confirmation at_dialog in
  (_on_logout_clicked s =
   (logout_clicked_entry ;;
    confirm_logout <- logout_clicked_confirmation ;;
    logout_clicked_request confirm_logout) s) /\
  logout_enabled at_dialog = false /\
  count needs_disabled (calls (logout_clicked_entry s)) = 0 /\
  calls confirmed =
    (if is_connection_active s
     then [DisconnectDialog DISCONNECT_ON_LOGOUT_MESSAGE; set_transient_for;
           run; destroy; set_enabled (next_answer s == NO)]
     else []) /\
  count is_logout (calls confirmed) = 0 /\
  (result confirmed = Returned true ->
   logout_enabled (state confirmed) = false) /\
  (forall s' : State,
     state (logout_clicked_request true s') = s' /\
     count is_logout (calls (logout_clicked_request true s')) = 1 /\
     calls (logout_clicked_request false s') = []) /\
  logout_enabled (state (_on_logout_clicked s)) =
    enabled_after (logout_enabled s) (calls (_on_logout_clicked s)) /\
  (forall (pre post : list Call) (c : Call),
     calls (_on_logout_clicked s) = pre ++ c :: post ->
     needs_disabled c = true ->
     enabled_after (logout_enabled s) pre = false).
Proof.
  cbv zeta.
  split; [apply logout_clicked_in_stretches |].
  rewrite logout_clicked_entry_run. cbn [state calls].
  split; [reflexivity |]. split; [reflexivity |].
  rewrite logout_clicked_confirmation_run.
  cbn [is_connection_active next_answer user_answers dialogs_run].
  fold (next_answer s).
  split; [destruct (is_connection_active s); reflexivity |].
  split; [destruct (is_connection_active s), (next_answer s);
          reflexivity |].
  split.
  { destruct (is_connection_active s); [| reflexivity].
    cbn [result state]. intros Hyes. injection Hyes as Hyes.
    apply eqb_YES in Hyes. now rewrite Hyes. }
  split; [intros s'; repeat split |].
  split; [apply logout_clicked_flag_is_replay |].
  intros pre post c Hsplit Hc.
  exact (disabled_when_needed_sound pre _ _ post c
           (logout_clicked_disabled_when_needed s) Hsplit Hc).
Qed.

Lemma logout_disabled_before_dialog_and_logout_witness :
  logout_enabled
    (state (logout_clicked_confirmation
              (state (logout_clicked_entry (init true (fun _ => YES))))))
  = false /\
  enabled_after (logout_enabled (init true (fun _ => YES)))
    [logger_info "Logout button clicked"; set_enabled false;
     DisconnectDialog DISCONNECT_ON_LOGOUT_MESSAGE; set_transient_for;
     run; destroy; set_enabled false; logger_info "Yes"]
  = false.
Proof.
  destruct (logout_disabled_before_dialog_and_logout
              (init true (fun _ => YES)))
    as (_ & _ & _ & _ & _ & Hstate & _ & _ & Hreplay).
  split.
  - exact (Hstate eq_refl).
  - exact (Hreplay
             [logger_info "Logout button clicked"; set_enabled false;
              DisconnectDialog DISCONNECT_ON_LOGOUT_MESSAGE;
              set_transient_for; run; destroy; set_enabled false;
              logger_info "Yes"]
             [add_done_callback] controller_logout eq_refl eq_refl).
Defined.

(** C9. A logout click with an active connection whose confirmation
    dialog gives a response that is neither "Yes" nor "No" leaves the
    logout action disabled and does not call [controller.logout()]. *)
Theorem logout_dismissed_stays_disabled (s : State) :
  is_connection_active s = true ->
  next_answer s <> YES ->
  next_answer s <> NO ->
  result (_on_logout_clicked s) = Returned tt /\
  logout_enabled (state (_on_logout_clicked s)) = false /\
  count is_logout (calls (_on_logout_clicked s)) = 0.
Proof.
  intros Hactive Hyes Hno.
  rewrite (logout_clicked_connected s Hactive).
  destruct (eqb_neither _ Hyes Hno) as [-> ->].
  repeat split.
Qed.

Lemma logout_dismissed_stays_disabled_witness :
  logout_enabled
    (state (_on_logout_clicked (init true (fun _ => DELETE_EVENT))))
  = false /\
  count is_logout
    (calls (_on_logout_clicked (init true (fun _ => DELETE_EVENT)))) = 0.
Proof.
  apply (logout_dismissed_stays_disabled
           (init true (fun _ => DELETE_EVENT)));
    [reflexivity | discriminate | discriminate].
Defined.

(** C10. When the logout future has resolved successfully, the result
    handler emits "user-logged-out" exactly once, shows no error dialog
    and leaves [logout_enabled] as it was: it makes no [set_enabled]
    call and the state is untouched, so an action that was disabled (as
    it is after a click that requested the logout) stays disabled. *)
Theorem logout_success_emits_once_keeps_flag (s : State) :
  result (_on_logout_result Resolved s) = Returned tt /\
  count (is_emit "user-logged-out") (calls (_on_logout_result Resolved s))
  = 1 /\
  count is_error_dialog (calls (_on_logout_result Resolved s)) = 0 /\
  count is_set_enabled (calls (_on_logout_result Resolved s)) = 0 /\
  logout_enabled (state (_on_logout_result Resolved s)) = logout_enabled s
  /\
  (logout_enabled s = false ->
   logout_enabled (state (_on_logout_result Resolved s)) = false).
Proof.
  rewrite logout_result_resolved. simpl.
  repeat split. intros Hoff; exact Hoff.
Qed.

Lemma logout_success_emits_once_keeps_flag_witness :
  count (is_emit "user-logged-out")
    (calls (_on_logout_result Resolved
              (state (_on_logout_clicked (init false (fun _ => NO))))))
  = 1 /\
  logout_enabled
    (state (_on_logout_result Resolved
              (state (_on_logout_clicked (init false (fun _ => NO))))))
  = false.
Proof.
  destruct (logout_success_emits_once_keeps_flag
              (state (_on_logout_clicked (init false (fun _ => NO)))))
    as (_ & Hemit & _ & _ & _ & Hoff).
  split; [exact Hemit | exact (Hoff eq_refl)].
Defined.

End MenuProofs.

(** * Properties of the login widget *)

Module LoginWidgetProofs.
Import LoginWidget.
Local Open Scope list_scope.

Section AnyForms.
Context {L T : Type} `{Forms.Form L} `{Forms.Form T}.

Lemma display_form_run (form : Child) (s : State L T) :
  display_form form s =
    MkRun (Returned tt)
      (match form with
       | child_login_form =>
           MkState (Forms.reset (login_form s)) (two_factor_auth_form s)
             (Some form) (children s) (Some form)
       | child_2fa_form =>
           MkState (login_form s) (Forms.reset (two_factor_auth_form s))
             (Some form) (children s) (Some form)
       end)
      [set_visible_child form; form_reset form].
Proof. destruct form; reflexivity. Qed.

Lemma constructed_state (lf : L) (tf : T) :
  constructed lf tf =
    MkState lf tf None [child_login_form; child_2fa_form]
      (Some child_login_form).
Proof. reflexivity. Qed.

(** A run through both screens: credentials accepted with a second
    factor due, the session expiring there, credentials accepted again
    and the second factor verified. *)
Example two_factor_round_trip (lf : L) (tf : T) :
  handle_all
    [emitted child_login_form (user_authenticated true);
     emitted child_2fa_form session_expired;
     emitted child_login_form (user_authenticated true);
     emitted child_2fa_form two_factor_auth_successful]
    (constructed lf tf) =
  MkRun (Returned tt)
    (MkState (Forms.reset lf) (Forms.reset (Forms.reset tf))
       (Some child_2fa_form) [child_login_form; child_2fa_form]
       (Some child_2fa_form))
    [set_visible_child child_2fa_form; form_reset child_2fa_form;
     set_visible_child child_login_form; form_reset child_login_form;
     set_visible_child child_2fa_form; form_reset child_2fa_form;
     emit "user-logged-in"].
Proof. reflexivity. Qed.

Lemma handle_returns (e : Event) (s : State L T) :
  result (handle e s) = Returned tt.
Proof.
  destruct e as [[] [[] | |] |]; reflexivity.
Qed.

Lemma handle_consistent (e : Event) (s : State L T) :
  consistent s -> consistent (state (handle e s)).
Proof.
  intros Hs.
  destruct e as [[] [[] | |] |]; try exact Hs; reflexivity.
Qed.

Lemma handle_all_consistent (es : list Event) :
  forall s : State L T,
    consistent s -> consistent (state (handle_all es s)).
Proof.
  induction es as [|e es IH]; intros s Hs.
  - exact Hs.
  - cbn [handle_all]. unfold bind.
    rewrite (handle_returns e s). cbn [state].
    apply IH, handle_consistent, Hs.
Qed.

(** Whatever happens to a constructed widget, exactly one of the two
    forms is on display, and it is the active one. *)
Lemma reachable_consistent (lf : L) (tf : T) (es : list Event) :
  consistent (state (handle_all es (constructed lf tf))).
Proof. apply handle_all_consistent. reflexivity. Qed.

(** C4. The flow controller's transitions.  As constructed, the stack
    shows the login form.  When the login form signals
    "user-authenticated" with [two_factor_auth_required = true], the
    widget makes the second-factor form the visible child and calls
    its [reset()].  When the second-factor form signals
    "session-expired", the widget makes the login form the visible
    child again and calls its [reset()]. *)
Theorem flow_transitions (lf : L) (tf : T) (s : State L T) :
  visible_child (constructed lf tf) = Some child_login_form /\
  (let r := on_signal child_login_form (user_authenticated true) s in
   result r = Returned tt /\
   visible_child (state r) = Some child_2fa_form /\
   active_form (state r) = Some child_2fa_form /\
   calls r = [set_visible_child child_2fa_form;
              form_reset child_2fa_form] /\
   two_factor_auth_form (state r)
   = Forms.reset (two_factor_auth_form s) /\
   login_form (state r) = login_form s) /\
  (let r := on_signal child_2fa_form session_expired s in
   result r = Returned tt /\
   visible_child (state r) = Some child_login_form /\
   active_form (state r) = Some child_login_form /\
   calls r = [set_visible_child child_login_form;
              form_reset child_login_form] /\
   login_form (state r) = Forms.reset (login_form s) /\
   two_factor_auth_form (state r) = two_factor_auth_form s).
Proof.
  split; [reflexivity |].
  split.
  - change (on_signal child_login_form (user_authenticated true) s)
      with (display_form child_2fa_form s).
    rewrite display_form_run. repeat split.
  - change (on_signal child_2fa_form session_expired s)
      with (display_form child_login_form s).
    rewrite display_form_run. repeat split.
Qed.

(** C5. On "user-authenticated" with [two_factor_auth_required =
    false], and on "two-factor-auth-successful", the widget emits
    "user-logged-in" exactly once and switches nothing: it makes no
    other call and its state is as before. *)
Theorem logged_in_signalled_once_without_switch (s : State L T) :
  (let r := on_signal child_login_form (user_authenticated false) s in
   result r = Returned tt /\
   calls r = [emit "user-logged-in"] /\
   count (is_emit "user-logged-in") (calls r) = 1 /\
   count is_switch (calls r) = 0 /\
   state r = s) /\
  (let r := on_signal child_2fa_form two_factor_auth_successful s in
   result r = Returned tt /\
   calls r = [emit "user-logged-in"] /\
   count (is_emit "user-logged-in") (calls r) = 1 /\
   count is_switch (calls r) = 0 /\
   state r = s).
Proof.
  split; repeat split.
Qed.
End AnyForms.

(** C3 as it is stated does not hold: [reset()] does not clear all input
    fields of the widget.  With the second-factor form on display and a
    code typed into it, [reset()] shows the login form and clears that
    one, makes no [reset()] call on the second-factor form, and the code
    and error text are still in it. *)
Lemma reset_keeps_second_factor_input :
  let s : State Forms.LoginForm Forms.TwoFactorAuthForm :=
    MkState (Forms.MkLoginForm "user" "secret" None)
      (Forms.MkTwoFactorAuthForm "123456" (Some "Invalid code."))
      (Some child_2fa_form) [child_login_form; child_2fa_form]
      (Some child_2fa_form) in
  visible_child (state (reset s)) = Some child_login_form /\
  count (is_reset_of child_2fa_form) (calls (reset s)) = 0 /\
  Forms.two_factor_auth_code (two_factor_auth_form (state (reset s)))
  = "123456" /\
  Forms.two_factor_auth_code (two_factor_auth_form (state (reset s)))
  <> "" /\
  Forms.two_factor_auth_error_message
    (two_factor_auth_form (state (reset s))) = Some "Invalid code.".
Proof.
  cbv zeta. repeat split. discriminate.
Qed.

(** C3, amended.  [reset()] makes the login form the visible child and
    clears the input state of that form (username, password and error
    message); it leaves the second-factor form as it is.  Every
    [display_form form] shows [form] and calls [form.reset()] exactly
    once, on that form, so a form never comes on display with what was
    left in it. *)
Theorem reset_shows_cleared_login_form {T : Type} `{Forms.Form T}
    (s : State Forms.LoginForm T) (form : Child) :
  (let r := reset s in
   result r = Returned tt /\
   visible_child (state r) = Some child_login_form /\
   active_form (state r) = Some child_login_form /\
   Forms.username (login_form (state r)) = "" /\
   Forms.password (login_form (state r)) = "" /\
   Forms.error_message (login_form (state r)) = None /\
   two_factor_auth_form (state r) = two_factor_auth_form s) /\
  (let r := display_form form s in
   result r = Returned tt /\
   visible_child (state r) = Some form /\
   active_form (state r) = Some form /\
   calls r = [set_visible_child form; form_reset form] /\
   count (is_reset_of form) (calls r) = 1 /\
   match form with
   | child_login_form =>
       login_form (state r) = Forms.reset (login_form s)
   | child_2fa_form =>
       two_factor_auth_form (state r)
       = Forms.reset (two_factor_auth_form s)
   end).
Proof.
  split.
  - repeat split.
  - rewrite display_form_run. destruct form; repeat split.
Qed.

End LoginWidgetProofs.

(** * Further properties of the menu *)

Module EffectProofs.
Local Open Scope list_scope.

Lemma count_app {E : Type} (p : E -> bool) (l1 l2 : list E) :
  count p (l1 ++ l2) = count p l1 + count p l2.
Proof. unfold count. now rewrite filter_app, length_app. Qed.

Lemma count_cons {E : Type} (p : E -> bool) (e : E) (l : list E) :
  count p (e :: l) = (if p e then 1 else 0) + count p l.
Proof. unfold count. simpl. now destruct (p e). Qed.

End EffectProofs.

Module MenuLoopProofs.
Import Menu MenuLoop EffectProofs.
Local Open Scope list_scope.

Lemma count_of_menu (p : Call -> bool) (q : Menu.Call -> bool)
    (l : list Menu.Call) :
  (forall c, p (of_menu c) = q c) ->
  count p (map of_menu l) = count q l.
Proof.
  intros Hpq. unfold count.
  induction l as [|c l IH]; [reflexivity |].
  simpl. rewrite Hpq. destruct (q c); simpl; now rewrite IH.
Qed.

(** The click handlers in one equation each, connected or not. *)
Lemma logout_clicked_run (s : State) :
  _on_logout_clicked s =
    MkRun (Returned tt)
      (MkState (is_connection_active s && (next_answer s == NO))
         (is_connection_active s) (user_answers s)
         (if is_connection_active s then S (dialogs_run s)
          else dialogs_run s))
      ([logger_info "Logout button clicked"; set_enabled false]
       ++ (if is_connection_active s
           then [DisconnectDialog DISCONNECT_ON_LOGOUT_MESSAGE;
                 set_transient_for; run; destroy;
                 set_enabled (next_answer s == NO)]
           else [])
       ++ (if negb (is_connection_active s) || (next_answer s == YES)
           then [logger_info "Yes"; controller_logout; add_done_callback]
           else [])).
Proof.
  destruct (is_connection_active s) eqn:Hactive.
  - rewrite (MenuProofs.logout_clicked_connected s Hactive). reflexivity.
  - rewrite (MenuProofs.logout_clicked_not_connected s Hactive). reflexivity.
Qed.

Lemma quit_clicked_run (s : State) :
  _on_quit_clicked s =
    MkRun (Returned tt)
      (MkState (logout_action_enabled s)
         (is_connection_active s) (user_answers s)
         (if is_connection_active s then S (dialogs_run s)
          else dialogs_run s))
      ((if is_connection_active s
        then [DisconnectDialog DISCONNECT_ON_QUIT_MESSAGE;
              set_transient_for; run; destroy]
        else [])
       ++ (if negb (is_connection_active s) || (next_answer s == YES)
           then [logger_info "Yes"; main_window_quit]
           else [])).
Proof.
  destruct (is_connection_active s) eqn:Hactive.
  - rewrite (MenuProofs.quit_clicked_connected s Hactive). reflexivity.
  - destruct s as [enabled active answers n]; simpl in Hactive; subst.
    reflexivity.
Qed.

Lemma report_clicked_run (s : State) :
  _on_report_an_issue_clicked s =
    MkRun (Returned tt)
      (MkState (logout_action_enabled s) (is_connection_active s)
         (user_answers s) (S (dialogs_run s)))
      [BugReportDialog; of_menu set_transient_for; of_menu run;
       of_menu destroy].
Proof. reflexivity. Qed.

Lemma about_clicked_run (s : State) :
  _on_about_clicked s =
    MkRun (Returned tt)
      (MkState (logout_action_enabled s) (is_connection_active s)
         (user_answers s) (S (dialogs_run s)))
      [AboutDialog; of_menu run; of_menu destroy].
Proof. reflexivity. Qed.

(** X1. A logout click calls [controller.logout()] exactly when there is
    no active connection or the confirmation is answered "Yes", and then
    exactly once; every other answer, a closed dialog included, calls it
    not at all. *)
Theorem logout_called_iff_confirmed (s : State) :
  count is_logout (calls (_on_logout_clicked s)) =
  if negb (is_connection_active s) || (next_answer s == YES) then 1 else 0.
Proof.
  rewrite logout_clicked_run.
  destruct (is_connection_active s), (next_answer s == YES); reflexivity.
Qed.

(** X2. After a logout click the logout action is enabled exactly when a
    connection was active and the confirmation was answered "No"; it is
    never left enabled by a click that called [controller.logout()]. *)
Theorem logout_enabled_iff_declined (s : State) :
  logout_enabled (state (_on_logout_clicked s)) =
    is_connection_active s && (next_answer s == NO) /\
  logout_enabled (state (_on_logout_clicked s))
  && Nat.ltb 0 (count is_logout (calls (_on_logout_clicked s))) = false.
Proof.
  rewrite logout_clicked_run.
  destruct (is_connection_active s); [| split; reflexivity].
  destruct (next_answer s); split; reflexivity.
Qed.

(** X3. A quit click calls the main window's [quit()] exactly when there
    is no active connection or the confirmation is answered "Yes", and
    then exactly once; it never calls [controller.logout()], never sets
    the logout action and leaves [logout_enabled] as it was. *)
Theorem quit_called_iff_confirmed (s : State) :
  count is_quit (calls (_on_quit_clicked s)) =
    (if negb (is_connection_active s) || (next_answer s == YES)
     then 1 else 0) /\
  count is_logout (calls (_on_quit_clicked s)) = 0 /\
  count is_set_enabled (calls (_on_quit_clicked s)) = 0 /\
  logout_enabled (state (_on_quit_clicked s)) = logout_enabled s.
Proof.
  rewrite quit_clicked_run.
  destruct (is_connection_active s), (next_answer s == YES);
    repeat split.
Qed.

(** X4. The click handler never reads [logout_enabled]: run from two
    states that differ in that flag only, connected or not and whatever
    the answer, it does the same.  So with no active connection two
    [logout_button_click()] in a row call [controller.logout()] twice,
    while two activations of the logout action call it once, the second
    finding the action disabled. *)
Theorem logout_guard_is_the_action (s : State) :
  (forall enabled : bool,
     _on_logout_clicked
       (MkState enabled (is_connection_active s)
          (user_answers s) (dialogs_run s))
     = _on_logout_clicked s) /\
  (is_connection_active s = false ->
   count is_logout
     (calls ((logout_button_click ;; logout_button_click) s)) = 2) /\
  (is_connection_active s = false ->
   logout_enabled s = true ->
   count is_controller_logout
     (calls ((activate logout_action ;; activate logout_action) s)) = 1).
Proof.
  split; [intros enabled; now rewrite !logout_clicked_run |].
  destruct s as [enabled active answers n]; simpl.
  split.
  - intros ->. reflexivity.
  - intros -> ->. reflexivity.
Qed.

Lemma logout_guard_is_the_action_witness :
  _on_logout_clicked (MkState false true (fun _ => NO) 0)
  = _on_logout_clicked (init true (fun _ => NO)) /\
  count is_logout
    (calls ((logout_button_click ;; logout_button_click)
              (init false (fun _ => NO)))) = 2 /\
  count is_controller_logout
    (calls ((activate logout_action ;; activate logout_action)
              (init false (fun _ => NO)))) = 1.
Proof.
  split; [| split].
  - exact (proj1 (logout_guard_is_the_action (init true (fun _ => NO)))
             false).
  - exact (proj1 (proj2 (logout_guard_is_the_action
                           (init false (fun _ => NO)))) eq_refl).
  - exact (proj2 (proj2 (logout_guard_is_the_action
                           (init false (fun _ => NO)))) eq_refl eq_refl).
Defined.

(** X5. Every handler that puts up a dialog runs it once and destroys
    it: in the calls of each of the four callbacks the dialogs
    constructed, run and destroyed are equally many, one when the
    callback shows a dialog and none otherwise, and that many answers of
    the user are used up. *)
Theorem dialogs_are_run_and_destroyed (a : Action) (s : State) :
  let k := if shows_dialog a s then 1 else 0 in
  count is_dialog_new (calls (callback a s)) = k /\
  count is_run (calls (callback a s)) = k /\
  count is_destroy (calls (callback a s)) = k /\
  dialogs_run (state (callback a s)) = dialogs_run s + k.
Proof.
  destruct a; simpl callback; unfold lift;
    rewrite ?report_clicked_run, ?about_clicked_run,
            ?logout_clicked_run, ?quit_clicked_run;
    cbn [shows_dialog state calls dialogs_run].
  - repeat split. lia.
  - repeat split. lia.
  - destruct (is_connection_active s).
    + destruct (next_answer s); repeat split; lia.
    + repeat split. lia.
  - destruct (is_connection_active s).
    + destruct (next_answer s); repeat split; lia.
    + repeat split. lia.
Qed.

(** X6. Reporting an issue and opening the about box leave the logout
    action alone, whatever the dialog returns: they return normally,
    never call [controller.logout()] or the main window's [quit()], set
    no action, emit no signal, and [logout_enabled] and the connection
    flag are as before. *)
Theorem plain_dialogs_change_nothing (a : Action) (s : State) :
  a = bug_report_action \/ a = about_action ->
  result (callback a s) = Returned tt /\
  count is_controller_logout (calls (callback a s)) = 0 /\
  count is_main_window_quit (calls (callback a s)) = 0 /\
  count is_set_logout_enabled (calls (callback a s)) = 0 /\
  count is_signal (calls (callback a s)) = 0 /\
  logout_enabled (state (callback a s)) = logout_enabled s /\
  is_connection_active (state (callback a s)) = is_connection_active s.
Proof.
  intros [-> | ->]; simpl callback;
    rewrite ?report_clicked_run, ?about_clicked_run; repeat split.
Qed.

Lemma plain_dialogs_change_nothing_witness :
  count is_controller_logout
    (calls (callback about_action (init true (fun _ => YES)))) = 0 /\
  logout_enabled (state (callback about_action (init true (fun _ => YES))))
  = true.
Proof.
  destruct (plain_dialogs_change_nothing about_action
              (init true (fun _ => YES)) (or_intror eq_refl))
    as (_ & Hlogout & _ & _ & _ & Hflag & _).
  split; [exact Hlogout | exact Hflag].
Defined.

(** X7. A logout future that failed with anything but
    [ProtonAPINotReachable] is not handled: after a click that called
    [controller.logout()], the result handler ends with that exception,
    makes no call (no error dialog, no signal) and the logout action
    stays disabled. *)
Theorem logout_other_failure_leaves_disabled (message : string)
    (s : State) :
  count is_logout (calls (_on_logout_clicked s)) = 1 ->
  let r := _on_logout_result (Failed (OtherException message))
             (state (_on_logout_clicked s)) in
  result r = Raised (OtherException message) /\
  calls r = [] /\
  logout_enabled (state r) = false.
Proof.
  intros Hcalled.
  rewrite MenuProofs.logout_result_other_failure. cbn [result calls state].
  repeat split.
  apply MenuProofs.logout_requested_leaves_disabled.
  rewrite Hcalled. discriminate.
Qed.

Lemma logout_other_failure_leaves_disabled_witness :
  logout_enabled
    (state (_on_logout_result (Failed (OtherException "boom"))
              (state (_on_logout_clicked (init true (fun _ => YES))))))
  = false.
Proof.
  exact (proj2 (proj2 (logout_other_failure_leaves_disabled "boom"
                         (init true (fun _ => YES)) eq_refl))).
Defined.

(** ** The menu in its main loop *)

Lemma activate_disabled (s : State) :
  logout_enabled s = false ->
  activate logout_action s = MkRun (Returned tt) s [].
Proof.
  intros Hoff. unfold activate, bind, gets. cbn [result state calls get_enabled].
  rewrite Hoff. reflexivity.
Qed.

Lemma activate_enabled (s : State) :
  logout_enabled s = true ->
  activate logout_action s =
    MkRun (result (_on_logout_clicked s)) (state (_on_logout_clicked s))
      (map of_menu (calls (_on_logout_clicked s))).
Proof.
  intros Hon. unfold activate, bind, gets. cbn [result state calls get_enabled].
  rewrite Hon. cbn [callback app]. unfold lift. reflexivity.
Qed.

(** What activating any action can do to the logout: at most one call of
    [controller.logout()], and then the action is off afterwards; and
    nothing at all to a logout action that is off. *)
Lemma activate_effect (a : Action) (s : State) :
  count is_controller_logout (calls (activate a s)) <= 1 /\
  (count is_controller_logout (calls (activate a s)) = 1 ->
   logout_enabled (state (activate a s)) = false) /\
  (logout_enabled s = false ->
   logout_enabled (state (activate a s)) = false /\
   count is_controller_logout (calls (activate a s)) = 0).
Proof.
  destruct a.
  - change (activate bug_report_action s)
      with (_on_report_an_issue_clicked s).
    rewrite report_clicked_run. cbn. repeat split; auto; discriminate.
  - change (activate about_action s) with (_on_about_clicked s).
    rewrite about_clicked_run. cbn. repeat split; auto; discriminate.
  - destruct (logout_enabled s) eqn:Hflag.
    + rewrite (activate_enabled s Hflag). cbn [calls state].
      rewrite (count_of_menu is_controller_logout is_logout)
        by reflexivity.
      rewrite logout_clicked_run. cbn [calls state].
      destruct (is_connection_active s); cbn.
      * destruct (next_answer s); cbn;
          repeat split; auto; discriminate.
      * repeat split; auto; discriminate.
    + rewrite (activate_disabled s Hflag). cbn.
      repeat split; auto; discriminate.
  - change (activate quit_action s) with (lift _on_quit_clicked s).
    unfold lift. rewrite quit_clicked_run. cbn [calls state].
    rewrite (count_of_menu is_controller_logout is_logout)
      by reflexivity.
    destruct (is_connection_active s), (next_answer s == YES); cbn;
      repeat split; auto; discriminate.
Qed.

Lemma step_single_flight (e : Event) (l : Loop) :
  single_flight l -> single_flight (step e l).
Proof.
  intros [Hle Hoff]. destruct e as [a | future | active].
  - destruct (activate_effect a (menu l)) as (Hone & Hthen & Hquiet).
    unfold single_flight; cbn [step futures menu].
    destruct (futures l) as [|[|n]] eqn:Hn; [| | lia].
    + cbn [Nat.add]. split; [exact Hone | exact Hthen].
    + destruct (Hquiet (Hoff eq_refl)) as [Hstill Hnone].
      rewrite Hnone. cbn. split; [lia | intros _; exact Hstill].
  - unfold single_flight; cbn [step].
    destruct (futures l) as [|[|n]] eqn:Hn.
    + rewrite Hn. split; [lia | discriminate].
    + cbn [futures]. split; [lia | discriminate].
    + lia.
  - unfold single_flight; cbn. split; [exact Hle | exact Hoff].
Qed.

Lemma run_loop_single_flight (es : list Event) :
  forall l : Loop, single_flight l -> single_flight (run_loop es l).
Proof.
  induction es as [|e es IH]; intros l Hl; [exact Hl |].
  apply (IH (step e l)), step_single_flight, Hl.
Qed.

(** X8. Through the logout action at most one logout is ever
    outstanding: whatever menu entries are picked, futures complete and
    connections come and go after the menu is built, there is never more
    than one [controller.logout()] whose result has not been handled,
    and the logout action is disabled for as long as there is one. *)
Theorem one_logout_in_flight (active : bool)
    (answers : nat -> ResponseType) (es : list Event) :
  futures (run_loop es (started active answers)) <= 1 /\
  (futures (run_loop es (started active answers)) = 1 ->
   logout_enabled (menu (run_loop es (started active answers))) = false).
Proof.
  apply (run_loop_single_flight es (started active answers)).
  split; [cbn; lia | discriminate].
Qed.

Lemma one_logout_in_flight_witness :
  logout_enabled
    (menu (run_loop [activated logout_action; activated logout_action]
             (started false (fun _ => NO)))) = false.
Proof.
  exact (proj2 (one_logout_in_flight false (fun _ => NO)
                  [activated logout_action; activated logout_action])
           eq_refl).
Defined.

Lemma step_quiet (e : Event) (l : Loop) :
  logout_enabled (menu l) = false ->
  futures l = 0 ->
  logout_enabled (menu (step e l)) = false /\
  futures (step e l) = 0 /\
  count is_controller_logout (log (step e l))
  = count is_controller_logout (log l).
Proof.
  intros Hoff Hnone. destruct e as [a | future | active].
  - destruct (activate_effect a (menu l)) as (_ & _ & Hquiet).
    destruct (Hquiet Hoff) as [Hstill Hcalls].
    cbn [step menu futures log].
    rewrite count_app, Hcalls, Hnone. repeat split; auto.
  - cbn [step]. rewrite Hnone. repeat split; auto.
  - cbn. repeat split; auto.
Qed.

(** X9. In the main loop, where an entry is picked by activating its
    action and a logout result arrives only for an outstanding logout, a
    logout action that is disabled with no logout outstanding stays so:
    after any activations, completed futures and connection changes it
    is still disabled and [controller.logout()] has not been called
    again.  The click handler called directly is not held by this:
    [logout_button_click()] on a disabled action with a connection
    active and the dialog answered "No" turns the action on. *)
Theorem disabled_logout_stays_disabled (es : list Event) :
  forall l : Loop,
    logout_enabled (menu l) = false ->
    futures l = 0 ->
    (logout_enabled (menu (run_loop es l)) = false /\
     futures (run_loop es l) = 0 /\
     count is_controller_logout (log (run_loop es l))
     = count is_controller_logout (log l)) /\
    (is_connection_active (menu l) = true ->
     next_answer (menu l) = NO ->
     logout_enabled (state (logout_button_click (menu l))) = true).
Proof.
  intros l Hoff Hnone. split.
  - revert l Hoff Hnone.
    induction es as [|e es IH]; intros l Hoff Hnone.
    + repeat split; auto.
    + destruct (step_quiet e l Hoff Hnone) as (Hoff' & Hnone' & Hcalls).
      cbn [run_loop fold_left].
      destruct (IH (step e l) Hoff' Hnone') as (H1 & H2 & H3).
      repeat split; auto. unfold run_loop in H3. now rewrite H3.
  - intros Hactive Hno. unfold logout_button_click.
    rewrite logout_clicked_run, Hactive, Hno. reflexivity.
Qed.

Lemma disabled_logout_stays_disabled_witness :
  logout_enabled
    (menu (run_loop [activated logout_action; activated quit_action]
             (run_loop [activated logout_action]
                (started true (fun n => if Nat.eqb n 0 then DELETE_EVENT
                                        else NO))))) = false /\
  count is_controller_logout
    (log (run_loop [activated logout_action; activated quit_action]
            (run_loop [activated logout_action]
               (started true (fun n => if Nat.eqb n 0 then DELETE_EVENT
                                       else NO))))) = 0 /\
  logout_enabled
    (state (logout_button_click
              (menu (run_loop [activated logout_action]
                       (started true (fun n => if Nat.eqb n 0 then DELETE_EVENT
                                               else NO)))))) = true.
Proof.
  destruct (disabled_logout_stays_disabled
              [activated logout_action; activated quit_action]
              (run_loop [activated logout_action]
                 (started true (fun n => if Nat.eqb n 0 then DELETE_EVENT
                                         else NO)))
              eq_refl eq_refl) as ((Hoff & _ & Hcalls) & Hdirect).
  split; [exact Hoff | split; [exact Hcalls |]].
  exact (Hdirect eq_refl eq_refl).
Defined.

(** X10. Only a [ProtonAPINotReachable] failure lets the user try again:
    once the one outstanding logout has completed, activating the logout
    action runs the click handler after that failure, and does nothing
    after a success or any other failure. *)
Theorem retry_only_after_unreachable (future : Future) (l : Loop) :
  single_flight l ->
  futures l = 1 ->
  calls (activate logout_action (menu (step (logout_done future) l))) =
  match future with
  | Failed (ProtonAPINotReachable _) =>
      map of_menu
        (calls (_on_logout_clicked (menu (step (logout_done future) l))))
  | _ => []
  end.
Proof.
  intros [_ Hoff] Hone. specialize (Hoff Hone).
  cbn [step]. rewrite Hone.
  destruct future as [| [message | message]]; cbn [menu].
  - unfold lift. rewrite MenuProofs.logout_result_resolved. cbn [state].
    now rewrite (activate_disabled _ Hoff).
  - unfold lift. rewrite MenuProofs.logout_result_not_reachable.
    cbn [state]. now rewrite activate_enabled.
  - unfold lift. rewrite MenuProofs.logout_result_other_failure.
    cbn [state]. now rewrite (activate_disabled _ Hoff).
Qed.

Lemma retry_only_after_unreachable_witness :
  count is_controller_logout
    (calls (activate logout_action
              (menu (step (logout_done
                             (Failed (ProtonAPINotReachable "down")))
                       (run_loop [activated logout_action]
                          (started false (fun _ => NO))))))) = 1.
Proof.
  rewrite (retry_only_after_unreachable
             (Failed (ProtonAPINotReachable "down"))
             (run_loop [activated logout_action]
                (started false (fun _ => NO)))).
  - reflexivity.
  - split; [apply le_n | intros _; reflexivity].
  - reflexivity.
Defined.

End MenuLoopProofs.

(** * Further properties of the login widget *)

Module LoginFlowProofs.
Import LoginWidget LoginFlow EffectProofs.
Local Open Scope list_scope.

Section AnyForms.
Context {L T : Type} `{Forms.Form L} `{Forms.Form T}.

(** One event: the switch it makes, if any, then the signal it raises,
    if any. *)
Lemma handle_run (e : Event) (s : State L T) :
  handle e s =
    MkRun (Returned tt)
      (match switches_to e with
       | Some form => state (display_form form s)
       | None => s
       end)
      ((match switches_to e with
        | Some form => [set_visible_child form; form_reset form]
        | None => []
        end)
       ++ (if logs_in e then [emit "user-logged-in"] else [])).
Proof. destruct e as [[] [[] | |] |]; reflexivity. Qed.

Lemma handle_all_cons (e : Event) (es : list Event) (s : State L T) :
  handle_all (e :: es) s =
    MkRun (result (handle_all es (state (handle e s))))
      (state (handle_all es (state (handle e s))))
      (calls (handle e s) ++ calls (handle_all es (state (handle e s)))).
Proof.
  cbn [handle_all]. unfold bind.
  now rewrite (LoginWidgetProofs.handle_returns e s).
Qed.

Lemma handle_all_returns (es : list Event) :
  forall s : State L T, result (handle_all es s) = Returned tt.
Proof.
  induction es as [|e es IH]; intros s; [reflexivity |].
  rewrite handle_all_cons. apply IH.
Qed.

Lemma handle_children (e : Event) (s : State L T) :
  children (state (handle e s)) = children s.
Proof. destruct e as [[] [[] | |] |]; reflexivity. Qed.

Lemma handle_visible (e : Event) (s : State L T) :
  visible_child (state (handle e s)) =
  match switches_to e with
  | Some form => Some form
  | None => visible_child s
  end.
Proof. destruct e as [[] [[] | |] |]; reflexivity. Qed.

Lemma shown_after_run (es : list Event) :
  forall s : State L T,
    visible_child (state (handle_all es s))
    = shown_after es (visible_child s).
Proof.
  induction es as [|e es IH]; intros s; [reflexivity |].
  rewrite handle_all_cons. cbn [state shown_after].
  now rewrite IH, handle_visible.
Qed.

Lemma shown_after_2fa (es : list Event) :
  forall shown : option Child,
    shown_after es shown = Some child_2fa_form ->
    shown = Some child_2fa_form \/
    In (emitted child_login_form (user_authenticated true)) es.
Proof.
  induction es as [|e es IH]; intros shown Hshown.
  - left. exact Hshown.
  - cbn [shown_after] in Hshown.
    destruct (IH _ Hshown) as [Hnow | Hlater].
    + destruct e as [[] [[] | |] |]; cbn in Hnow;
        try discriminate Hnow;
        solve [left; exact Hnow | right; left; reflexivity].
    + right. right. exact Hlater.
Qed.

Lemma constructed_children_fixed (lf : L) (tf : T) :
  children (constructed lf tf) = [child_login_form; child_2fa_form].
Proof. reflexivity. Qed.

(** X11. Whatever signals arrive and however often [reset()] is called
    on a widget as constructed, every handler returns, the stack keeps
    its two children, one of them is on display, and that one is the
    [active_form] (the login form as long as [active_form] is still
    [None]). *)
Theorem widget_shows_its_active_form (lf : L) (tf : T)
    (es : list Event) :
  let s := state (handle_all es (constructed lf tf)) in
  result (handle_all es (constructed lf tf)) = Returned tt /\
  children s = [child_login_form; child_2fa_form] /\
  match active_form s with
  | Some form => visible_child s = Some form
  | None => visible_child s = Some child_login_form
  end.
Proof.
  split; [apply handle_all_returns |]. split.
  - generalize (constructed_children_fixed lf tf).
    generalize (constructed lf tf).
    induction es as [|e es IH]; intros s Hs; [exact Hs |].
    rewrite handle_all_cons. cbn [state].
    apply IH. now rewrite handle_children.
  - apply (LoginWidgetProofs.handle_all_consistent es). reflexivity.
Qed.

(** X12. Over any run of events, from any state, "user-logged-in" is
    emitted once for each event that completes the login (the login form
    authenticating with no second factor due, or the second-factor form
    succeeding) and for no other event. *)
Theorem logged_in_once_per_completion (es : list Event) :
  forall s : State L T,
    count (is_emit "user-logged-in") (calls (handle_all es s))
    = count logs_in es.
Proof.
  induction es as [|e es IH]; intros s; [reflexivity |].
  rewrite handle_all_cons. cbn [calls].
  rewrite count_app, count_cons, IH. f_equal.
  rewrite handle_run. cbn [calls].
  destruct e as [[] [[] | |] |]; reflexivity.
Qed.

(** X13. The form on display after a run of events is the one the last
    switching event asks for (the second-factor form for an
    authentication that needs a second factor, the login form for an
    expired session or a [reset()]), and the one shown before if none of
    the events switches. *)
Theorem visible_form_follows_last_switch (es : list Event)
    (s : State L T) :
  visible_child (state (handle_all es s))
  = shown_after es (visible_child s).
Proof. apply shown_after_run. Qed.

(** X14. Driven by its forms' signals and by [reset()] alone, the
    widget never brings up the second-factor form by itself: if a widget
    as constructed shows it after a run of such events, then among them
    the login form signalled "user-authenticated" with a second factor
    required.  A call of the public [display_form] from outside is no
    such event, and with the second-factor form as argument it shows
    that form with no signal at all. *)
Theorem second_factor_only_after_first (lf : L) (tf : T)
    (es : list Event) :
  (visible_child (state (handle_all es (constructed lf tf)))
   = Some child_2fa_form ->
   In (emitted child_login_form (user_authenticated true)) es) /\
  visible_child (state (display_form child_2fa_form (constructed lf tf)))
  = Some child_2fa_form.
Proof.
  split; [| reflexivity].
  rewrite shown_after_run. intros Hshown.
  destruct (shown_after_2fa es _ Hshown) as [Hstart | Hin];
    [discriminate Hstart | exact Hin].
Qed.

Lemma form_states_run (es : list Event) :
  forall s : State L T,
    login_form (state (handle_all es s))
    = Nat.iter (count (displays child_login_form) es) Forms.reset
        (login_form s) /\
    two_factor_auth_form (state (handle_all es s))
    = Nat.iter (count (displays child_2fa_form) es) Forms.reset
        (two_factor_auth_form s).
Proof.
  induction es as [|e es IH]; intros s; [split; reflexivity |].
  rewrite handle_all_cons. cbn [state].
  destruct (IH (state (handle e s))) as [Hlogin Htwo].
  rewrite Hlogin, Htwo, !count_cons.
  destruct e as [[] [[] | |] |]; cbn [displays switches_to Child_eqb];
    cbn [handle on_signal]; split;
    try reflexivity;
    cbn [Nat.add]; now rewrite Nat.iter_succ_r.
Qed.

(** X15. The widget touches its forms through [reset()] alone, once per
    display: after any run of events each form is its earlier self with
    [reset()] applied as often as events put that form on display, and
    the calls hold as many [reset()] of a form as [set_visible_child] of
    it. *)
Theorem forms_reset_once_per_display (es : list Event) (s : State L T)
    (form : Child) :
  login_form (state (handle_all es s))
  = Nat.iter (count (displays child_login_form) es) Forms.reset
      (login_form s) /\
  two_factor_auth_form (state (handle_all es s))
  = Nat.iter (count (displays child_2fa_form) es) Forms.reset
      (two_factor_auth_form s) /\
  count (is_reset_of form) (calls (handle_all es s))
  = count (displays form) es /\
  count (is_display_of form) (calls (handle_all es s))
  = count (displays form) es.
Proof.
  destruct (form_states_run es s) as [Hlogin Htwo].
  split; [exact Hlogin |]. split; [exact Htwo |].
  revert s Hlogin Htwo.
  induction es as [|e es IH]; intros s _ _; [split; reflexivity |].
  rewrite handle_all_cons. cbn [calls].
  destruct (form_states_run es (state (handle e s))) as [Hl Ht].
  destruct (IH (state (handle e s)) Hl Ht) as [Hreset Hdisplay].
  rewrite !count_app, Hreset, Hdisplay, !count_cons, handle_run.
  cbn [calls].
  destruct form, e as [[] [[] | |] |]; split; reflexivity.
Qed.

End AnyForms.

Lemma second_factor_only_after_first_witness :
  In (emitted child_login_form (user_authenticated true))
    [emitted child_login_form (user_authenticated true)].
Proof.
  exact (proj1 (second_factor_only_after_first
                  (Forms.MkLoginForm "user" "secret" None)
                  (Forms.MkTwoFactorAuthForm "" None)
                  [emitted child_login_form (user_authenticated true)])
           eq_refl).
Defined.

End LoginFlowProofs.
